(** * Unrolled net of an elliptical prism: the geometry of
      [elipticalprismnet29-11-24.py]

    The script computes, for an ellipse of given semi-axes, the two cut
    lines of a lampshade on the unrolled lateral surface, clips them to the
    height of the prism and hands them to a plotting library.

    Numbers.  The script computes with numpy's float64.  This development
    reads every arithmetic operation, [np.sin], [np.tan] and [np.pi] as the
    operation on real numbers ([R] of the Standard Library): rounding,
    infinities and NaN are outside that reading.  Arrays are lists, numpy's
    broadcasting of a scalar over an array is a [map].  Where rounding
    decides a statement, module [f64] evaluates the same lines in binary64.

    Collaborators.  The CAD kernel that measures the ellipse and the
    plotting library are parameters: the kernel returns a length or raises;
    the library answers each request with the records its own loggers emit
    and, possibly, an exception.  The requests that take effect are recorded
    in the world, and logging appends records to a log. *)

From Stdlib Require Import Reals Lra Lia String List ZArith Arith.
From Stdlib Require Floats.PrimFloat.
Import ListNotations.
Local Open Scope R_scope.

(** ** numpy, on real numbers *)

Module np.

Definition pi : R := PI.

(** [np.radians(x)]: degrees to radians. *)
Definition radians (x : R) : R := x * PI / 180.

Definition tan (x : R) : R := Rtrigo1.tan x.

(** [np.sin(a)] on an array. *)
Definition sin (a : list R) : list R := map Rtrigo_def.sin a.

(** [k * a], [a / k], [a - k], [k + a] with a scalar [k] broadcast. *)
Definition rmul (k : R) (a : list R) : list R := map (fun x => k * x) a.
Definition divide (a : list R) (k : R) : list R := map (fun x => x / k) a.
Definition subtract (a : list R) (k : R) : list R := map (fun x => x - k) a.
Definition add (a : list R) (k : R) : list R := map (fun x => x + k) a.
Definition radd (k : R) (a : list R) : list R := map (fun x => k + x) a.

(** [np.maximum(a, k)] and [np.minimum(a, k)], elementwise. *)
Definition maximum (a : list R) (k : R) : list R := map (fun x => Rmax x k) a.
Definition minimum (a : list R) (k : R) : list R := map (fun x => Rmin x k) a.

(** [np.linspace(start, stop, num)] with the default [endpoint=True]:
    [arange(0, num) * step + start] with [step = (stop - start) / (num - 1)],
    and then, when [num > 1], the last entry overwritten by [stop]. *)
Definition linspace (start stop : R) (num : nat) : list R :=
  let div := INR (num - 1) in
  let step := (stop - start) / div in
  let y := map (fun i => INR i * step + start) (seq 0 num) in
  if (1 <? num)%nat then removelast y ++ [stop] else y.

End np.

(** ** The parameters of the script *)

Record Config : Type := {
  MAJOR_AXIS : R;
  MINOR_AXIS : R;
  HEIGHT : R;
  SHELL_THICKNESS : R;
  CUT1_ANGLE : R;
  CUT2_ANGLE : R;
  CUT1_START_HEIGHT : R;
  CUT2_START_HEIGHT : R
}.

(** The values written in the script (lines 27-34). *)
Definition script_config : Config := {|
  MAJOR_AXIS := 12;
  MINOR_AXIS := 4;
  HEIGHT := 25;
  SHELL_THICKNESS := 1 / 10;
  CUT1_ANGLE := 45;
  CUT2_ANGLE := 45;
  CUT1_START_HEIGHT := 3;
  CUT2_START_HEIGHT := 1
|}.

(** ** The numeric core (lines 51-63) *)

Section Geometry.

Variable c : Config.
Variable perimeter : R.

(** Line 51. *)
Definition t : list R := np.linspace 0 perimeter 200.

(** Lines 54-55. *)
Definition amplitude1 : R := MAJOR_AXIS c * np.tan (np.radians (CUT1_ANGLE c)).
Definition amplitude2 : R := MAJOR_AXIS c * np.tan (np.radians (CUT2_ANGLE c)).

(** Lines 58-59: the cut lines before clipping. *)
Definition cut1_y_raw : list R :=
  np.radd (CUT1_START_HEIGHT c)
    (np.rmul amplitude1
       (np.radd 1
          (np.sin (np.subtract (np.divide (np.rmul (2 * np.pi) t) perimeter)
                               (np.pi / 2))))).

Definition cut2_y_raw : list R :=
  np.radd (CUT2_START_HEIGHT c)
    (np.rmul amplitude2
       (np.radd 1
          (np.sin (np.add (np.divide (np.rmul (2 * np.pi) t) perimeter)
                          (np.pi / 2))))).

(** Lines 62-63: clipping to [0, HEIGHT]. *)
Definition cut1_y : list R := np.minimum (np.maximum cut1_y_raw 0) (HEIGHT c).
Definition cut2_y : list R := np.minimum (np.maximum cut2_y_raw 0) (HEIGHT c).

End Geometry.

(** ** The world the script acts on *)

(** An f-string: literal pieces and formatted values.  [LibraryText] is the text
    of a record emitted by the plotting library's own loggers, which reach
    the handlers of the root logger configured on lines 17-24. *)
Inductive Frag : Type :=
| Lit (s : string)
| Num (x : R)
| Traceback
| LibraryText (s : string).

Definition Message : Type := list Frag.

Inductive Level : Type := DEBUG | INFO | ERROR.

Record LogRecord : Type := { level : Level; message : Message }.

(** What the plotting library has been asked to draw. *)
Inductive Artist : Type :=
| Line2D (xdata ydata : list R) (fmt : string) (label : Message)
| Text (x y : R) (s : Message).

(** What the plotting library has been asked to set on the axes. *)
Inductive Style : Type :=
| Aspect (mode : string)
| Grid (linestyle : string) (alpha : R)
| XLabel (s : string) (fontsize : R)
| YLabel (s : string) (fontsize : R)
| Title (s : string) (fontsize pad : R)
| Legend (anchor_x anchor_y : R) (loc : string)
| TightLayout.

Record World : Type := {
  log : list LogRecord;                       (* handlers of [logging] *)
  artists : list Artist;                      (* current figure of [plt] *)
  styling : list Style;                       (* its axes settings *)
  saved : list (string * list Artist)         (* writes of [savefig], oldest first *)
}.


(** Python's two kinds of exception that matter here: [sys.exit] raises
    [SystemExit], which [except Exception] does not catch. *)
Inductive BaseException : Type :=
| Exception (msg : string)
| SystemExit (code : Z).

Inductive Result (A : Type) : Type :=
| Return (a : A)
| Raise (e : BaseException).
Arguments Return {A} a.
Arguments Raise {A} e.

(** A statement: runs in a world, returns or raises, leaves a world. *)
Definition Py (A : Type) : Type := World -> Result A * World.

Definition ret {A} (a : A) : Py A := fun w => (Return a, w).

Definition bind {A B} (m : Py A) (k : A -> Py B) : Py B :=
  fun w =>
    match m w with
    | (Return a, w') => k a w'
    | (Raise e, w') => (Raise e, w')
    end.

Definition raise {A} (e : BaseException) : Py A := fun w => (Raise e, w).

(** [try: body except Exception as e: handler]. *)
Definition try_except {A} (body : Py A) (handler : string -> Py A) : Py A :=
  fun w =>
    match body w with
    | (Raise (Exception msg), w') => handler msg w'
    | r => r
    end.

Declare Scope py_scope.
Delimit Scope py_scope with py.
Notation "x <- m ;; k" := (bind m (fun x => k))
  (at level 100, m at next level, right associativity) : py_scope.
Notation "m ;; k" := (bind m (fun _ => k))
  (at level 100, right associativity) : py_scope.

Module logging.
Definition emit (l : Level) (m : Message) : Py unit :=
  fun w => (Return tt,
            {| log := log w ++ [{| level := l; message := m |}];
               artists := artists w; styling := styling w;
               saved := saved w |}).
Definition info := emit INFO.
Definition debug := emit DEBUG.
Definition error := emit ERROR.
End logging.

(** ** The plotting library *)

(** A request to the plotting library, with the arguments that carry data. *)
Inductive Call : Type :=
| Subplots (width height : R)
| Plot (xs ys : list R) (fmt : string) (label : Message)
| Decorate (s : Style)
| WriteText (x y : R) (s : Message)
| Savefig (file : string)
| Show.

(** How the library answers a request: the records its own loggers emit
    while it works, and the message of the exception it raises, if any. *)
Definition Library : Type := Call -> list (Level * string) * option string.

Definition library_record (r : Level * string) : LogRecord :=
  {| level := fst r; message := [LibraryText (snd r)] |}.

Module plt.

(** One request: the library logs what it logs; then it either raises or
    the request takes effect.  What a request that raised has left behind
    in the figure or on disk is not recorded. *)
Definition request (lib : Library) (req : Call) (effect : World -> World)
  : Py unit :=
  fun w =>
    let w1 := {| log := log w ++ map library_record (fst (lib req));
                 artists := artists w; styling := styling w;
                 saved := saved w |} in
    match snd (lib req) with
    | Some msg => (Raise (Exception msg), w1)
    | None => (Return tt, effect w1)
    end.

Definition draw (a : Artist) (w : World) : World :=
  {| log := log w; artists := artists w ++ [a]; styling := styling w;
     saved := saved w |}.

Definition decorate (s : Style) (w : World) : World :=
  {| log := log w; artists := artists w; styling := styling w ++ [s];
     saved := saved w |}.

(** [plt.subplots(figsize=...)]: a new, empty current figure. *)
Definition subplots (lib : Library) (width height : R) : Py unit :=
  request lib (Subplots width height)
    (fun w => {| log := log w; artists := []; styling := [];
                 saved := saved w |}).

Definition plot (lib : Library) (xs ys : list R) (fmt : string)
    (label : Message) : Py unit :=
  request lib (Plot xs ys fmt label) (draw (Line2D xs ys fmt label)).

Definition text (lib : Library) (x y : R) (s : Message) : Py unit :=
  request lib (WriteText x y s) (draw (Text x y s)).

Definition style (lib : Library) (s : Style) : Py unit :=
  request lib (Decorate s) (decorate s).

(** [plt.savefig(file, ...)]: the current figure written to [file]. *)
Definition savefig (lib : Library) (file : string) : Py unit :=
  request lib (Savefig file)
    (fun w => {| log := log w; artists := artists w; styling := styling w;
                 saved := saved w ++ [(file, artists w)] |}).

(** [plt.show()]: draws nothing new. *)
Definition show (lib : Library) : Py unit := request lib Show (fun w => w).

End plt.

Module sys.
Definition exit {A} (code : Z) : Py A := raise (SystemExit code).
End sys.

(** ** The script *)

Section Script.

Local Open Scope py_scope.
Local Open Scope string_scope.

(** The CAD kernel: [cq.Workplane("XY").ellipse(rx, ry)] followed by
    [.edges().objects[0].Length()].  [inl msg]: the kernel raises. *)
Variable ellipse_length : R -> R -> string + R.

(** The plotting library behind [plt]. *)
Variable matplotlib : Library.

Definition measure_ellipse (rx ry : R) : Py R :=
  match ellipse_length rx ry with
  | inr len => ret len
  | inl msg => raise (Exception msg)
  end.

Variable c : Config.

(** Lines 38-103: the statements inside the [try]. *)
Definition calculate_net_geometry_try : Py unit :=
  logging.info [Lit "Starting geometry calculation"] ;;
  let save_path := "." in
  let pdf_file := save_path ++ "/" ++ "elipticalprism_net_export.pdf" in
  logging.info [Lit "Output path: "; Lit pdf_file] ;;
  perimeter <- measure_ellipse (MINOR_AXIS c) (MAJOR_AXIS c) ;;
  logging.debug [Lit "Perimeter calculated: "; Num perimeter] ;;
  let t := t perimeter in
  let cut1_y := cut1_y c perimeter in
  let cut2_y := cut2_y c perimeter in
  logging.info [Lit "Creating plot"] ;;
  plt.subplots matplotlib 11.69 8.27 ;;
  plt.plot matplotlib [0; perimeter] [0; 0] "b-" [Lit "Bottom Edge"] ;;
  plt.plot matplotlib t cut1_y "r-"
    [Lit "Cut 1 ("; Num (CUT1_ANGLE c); Lit "°)"] ;;
  plt.plot matplotlib t cut2_y "r--"
    [Lit "Cut 2 ("; Num (CUT2_ANGLE c); Lit "°)"] ;;
  plt.style matplotlib (Aspect "equal") ;;
  plt.style matplotlib (Grid "--" 0.7) ;;
  plt.style matplotlib (XLabel "Width (mm)" 12) ;;
  plt.style matplotlib (YLabel "Height (mm)" 12) ;;
  plt.style matplotlib (Title "Lampshade Net with Height-Limited Cuts" 14 20) ;;
  plt.style matplotlib (Legend 1.05 1 "upper left") ;;
  plt.style matplotlib TightLayout ;;
  plt.text matplotlib 0 (-2)
    [Lit "Major Axis: "; Num (MAJOR_AXIS c); Lit "mm"] ;;
  plt.text matplotlib (perimeter / 2) (-2)
    [Lit "Minor Axis: "; Num (MINOR_AXIS c); Lit "mm"] ;;
  logging.info [Lit "Saving PDF..."] ;;
  plt.savefig matplotlib pdf_file ;;
  logging.info [Lit "PDF saved to: "; Lit pdf_file] ;;
  plt.show matplotlib.

(** Lines 36-108: the [try] and its handler. *)
Definition calculate_net_geometry : Py unit :=
  try_except calculate_net_geometry_try
    (fun e =>
       logging.error [Lit "Error occurred: "; Lit e] ;;
       logging.error [Traceback] ;;
       sys.exit 1).

(** Lines 110-117. *)
Definition main : Py unit :=
  try_except
    (logging.info [Lit "Starting net generation"] ;;
     calculate_net_geometry)
    (fun e =>
       logging.error [Lit "Main execution error: "; Lit e] ;;
       logging.error [Traceback] ;;
       sys.exit 1).

End Script.

(** The four series the figure holds after a run: the samples, the bottom
    edge and the two clipped cut lines, read off the lines drawn. *)
Record UnrolledNet : Type := {
  samples : list R;
  bottomEdge : list (R * R);
  cutLine1 : list R;
  cutLine2 : list R
}.




(** ** Concrete inputs and observations *)


(** The net as a function of the parameters and the measured perimeter. *)
Definition net_of (c : Config) (perimeter : R) : UnrolledNet :=
  {| samples := t perimeter;
     bottomEdge := [(0, 0); (perimeter, 0)];
     cutLine1 := cut1_y c perimeter;
     cutLine2 := cut2_y c perimeter |}.

(** The parameters of the script, but with a negative height. *)
Definition negative_height_config : Config := {|
  MAJOR_AXIS := 12;
  MINOR_AXIS := 4;
  HEIGHT := -5;
  SHELL_THICKNESS := 1 / 10;
  CUT1_ANGLE := 45;
  CUT2_ANGLE := 45;
  CUT1_START_HEIGHT := 3;
  CUT2_START_HEIGHT := 1
|}.

(** The world before anything has run. *)
Definition empty_world : World :=
  {| log := []; artists := []; styling := []; saved := [] |}.

(** A configuration with both cuts level. *)
Definition level_config : Config := {|
  MAJOR_AXIS := 12;
  MINOR_AXIS := 4;
  HEIGHT := 25;
  SHELL_THICKNESS := 1 / 10;
  CUT1_ANGLE := 0;
  CUT2_ANGLE := 0;
  CUT1_START_HEIGHT := 3;
  CUT2_START_HEIGHT := 1
|}.

(** What a finished run has drawn, logged and saved. *)

Definition pdf_file : string := "./elipticalprism_net_export.pdf".

(** The artists of the figure, in the order of lines 70-89. *)
Definition drawn (c : Config) (perimeter : R) : list Artist :=
  [ Line2D [0; perimeter] [0; 0] "b-" [Lit "Bottom Edge"];
    Line2D (t perimeter) (cut1_y c perimeter) "r-"
      [Lit "Cut 1 ("; Num (CUT1_ANGLE c); Lit "°)"];
    Line2D (t perimeter) (cut2_y c perimeter) "r--"
      [Lit "Cut 2 ("; Num (CUT2_ANGLE c); Lit "°)"];
    Text 0 (-2) [Lit "Major Axis: "; Num (MAJOR_AXIS c); Lit "mm"];
    Text (perimeter / 2) (-2) [Lit "Minor Axis: "; Num (MINOR_AXIS c); Lit "mm"] ].


(** The records of a run in which the kernel raised with [msg]. *)
Definition records_raised (msg : string) : list LogRecord :=
  [ {| level := INFO; message := [Lit "Starting geometry calculation"] |};
    {| level := INFO; message := [Lit "Output path: "; Lit pdf_file] |};
    {| level := ERROR; message := [Lit "Error occurred: "; Lit msg] |};
    {| level := ERROR; message := [Traceback] |} ].

(** The x and y data of the lines among some artists. *)
Definition line_data (a : Artist) : option (list R * list R) :=
  match a with
  | Line2D xs ys _ _ => Some (xs, ys)
  | Text _ _ _ => None
  end.

(** A kernel that refuses every ellipse. *)
Definition refusing_kernel (a b : R) : string + R := inl "degenerate ellipse"%string.



(** One that logs a line on every request. *)
Definition chatty_library : Library :=
  fun _ => ([(DEBUG, "findfont: score computed"%string)], None).




(** The two records the handler of lines 105-108 writes for [msg]. *)
Definition error_records (msg : string) : list LogRecord :=
  [ {| level := ERROR; message := [Lit "Error occurred: "%string; Lit msg] |};
    {| level := ERROR; message := [Traceback] |} ].

(** The external call that raised with [msg]: the kernel, or some request to
    the plotting library. *)
Definition blamed (ellipse_length : R -> R -> string + R) (lib : Library)
    (c : Config) (msg : string) : Prop :=
  ellipse_length (MINOR_AXIS c) (MAJOR_AXIS c) = inl msg \/
  exists req, snd (lib req) = Some msg.


(** What a statement does to the log and how it can end: it appends
    records, each satisfying [P]; it never exits by itself; and an exception
    it lets out carries a message satisfying [E]. *)
Definition behaves (P : LogRecord -> Prop) (E : string -> Prop)
    {A : Type} (m : Py A) : Prop :=
  forall w,
    (exists recs, log (snd (m w)) = log w ++ recs /\ Forall P recs) /\
    match fst (m w) with
    | Return _ => True
    | Raise (Exception msg) => E msg
    | Raise (SystemExit _) => False
    end.

(** A record that does not read "Main execution error". *)
Definition not_main_error (r : LogRecord) : Prop :=
  forall msg rest,
    message r <> Lit "Main execution error: "%string :: Lit msg :: rest.

(** ** float64 at the start of the sweep

    Where the rounding of float64 decides a statement, the values are
    computed in binary64 itself.  [np.tan] and [np.sin] belong to the
    platform's mathematical library; their results at the two arguments
    needed are given as constants. *)
Module f64.

Import PrimFloat.
Local Open Scope float_scope.

(** [np.pi]. *)
Definition pi : float := 0x1.921fb54442d18p+1.

(** [np.radians(x)] is [x * (pi / 180)]. *)
Definition radians (x : float) : float := x * (pi / 180).

(** [np.tan(np.radians(45))]: the double nearest to the tangent of
    [radians 45], which lies just below pi/4. *)
Definition tan_radians_45 : float := 0x1.fffffffffffffp-1.

(** [np.sin(2*np.pi*0/perimeter + np.pi/2)], the sine of the double nearest
    to pi/2, and [np.sin(2*np.pi*0/perimeter - np.pi/2)]. *)
Definition sin_plus_half_pi : float := 1.
Definition sin_minus_half_pi : float := -1.

(** [np.maximum] and [np.minimum] on two numbers. *)
Definition maximum (a b : float) : float := if a <? b then b else a.
Definition minimum (a b : float) : float := if b <? a then b else a.

(** Lines 54-55, 58-59 and 62-63 at one sample, from the results of
    [np.tan] and [np.sin] there. *)
Definition amplitude (major_axis tan_angle : float) : float :=
  major_axis * tan_angle.

Definition cut_y_raw (start_height amplitude sin_phase : float) : float :=
  start_height + amplitude * (1 + sin_phase).

Definition clip (y height : float) : float := minimum (maximum y 0) height.

(** The constants of the script (lines 27-34), with the angle of 45 degrees
    converted. *)
Definition MAJOR_AXIS : float := 12.
Definition HEIGHT : float := 25.
Definition CUT1_START_HEIGHT : float := 3.
Definition CUT2_START_HEIGHT : float := 1.
Definition CUT_ANGLE_RADIANS : float := radians 45.

(** The two cut lines at the sample t = 0. *)
Definition cut1_y_raw_start : float :=
  cut_y_raw CUT1_START_HEIGHT (amplitude MAJOR_AXIS tan_radians_45)
    sin_minus_half_pi.
Definition cut2_y_raw_start : float :=
  cut_y_raw CUT2_START_HEIGHT (amplitude MAJOR_AXIS tan_radians_45)
    sin_plus_half_pi.
Definition cut1_y_start : float := clip cut1_y_raw_start HEIGHT.
Definition cut2_y_start : float := clip cut2_y_raw_start HEIGHT.

(** The doubles nearest to pi/4, just below 12 and just below 25:
    0.7853981633974483, 11.999999999999998 and 24.999999999999996. *)
Definition nearest_quarter_pi : float := 0x1.921fb54442d18p-1.
Definition just_below_12 : float := 0x1.7ffffffffffffp+3.
Definition just_below_25 : float := 0x1.8ffffffffffffp+4.

End f64.

(** * Properties *)

(** ** Arrays *)

Section ArrayFacts.

(** Reading a mapped list at a valid index, whatever the defaults. *)
Lemma nth_map_at {A B : Type} (f : A -> B) (l : list A) (i : nat) (d : B) (d' : A) :
  (i < length l)%nat -> nth i (map f l) d = f (nth i l d').
Proof.
  revert i. induction l as [|x l IH]; intros [|i] Hi; simpl in *; try lia.
  - reflexivity.
  - apply IH. lia.
Qed.

Lemma linspace_unfold (a b : R) (m : nat) :
  np.linspace a b (S (S m)) =
  map (fun i => INR i * ((b - a) / INR (S m)) + a) (seq 0 (S m)) ++ [b].
Proof.
  unfold np.linspace.
  replace (S (S m) - 1)%nat with (S m) by lia.
  replace (1 <? S (S m))%nat with true by (symmetry; apply Nat.ltb_lt; lia).
  rewrite (seq_S (S m) 0), map_app. simpl map at 2.
  now rewrite removelast_last.
Qed.

Lemma linspace_length (a b : R) (n : nat) : length (np.linspace a b n) = n.
Proof.
  destruct n as [|[|m]]; try reflexivity.
  rewrite linspace_unfold, length_app, length_map, length_seq. simpl. lia.
Qed.

(** Entry [i] as numpy stores it: the interpolation formula, and [stop]
    itself in the last place. *)
Lemma linspace_nth_stored (a b : R) (n i : nat) :
  (1 < n)%nat -> (i < n)%nat ->
  nth i (np.linspace a b n) 0 =
  if (i =? n - 1)%nat then b else INR i * ((b - a) / INR (n - 1)) + a.
Proof.
  intros Hn Hi. destruct n as [|[|m]]; try lia.
  rewrite linspace_unfold.
  replace (S (S m) - 1)%nat with (S m) by lia.
  destruct (Nat.eqb_spec i (S m)) as [->|Hne].
  - rewrite app_nth2; rewrite length_map, length_seq; [|lia].
    now rewrite Nat.sub_diag.
  - rewrite app_nth1 by (rewrite length_map, length_seq; lia).
    rewrite (nth_map_at _ _ _ _ 0%nat) by (rewrite length_seq; lia).
    rewrite seq_nth by lia. reflexivity.
Qed.

(** On real numbers the last place holds the value of the formula too. *)
Lemma linspace_nth (a b : R) (n i : nat) :
  (1 < n)%nat -> (i < n)%nat ->
  nth i (np.linspace a b n) 0 = a + INR i * ((b - a) / INR (n - 1)).
Proof.
  intros Hn Hi. rewrite linspace_nth_stored by assumption.
  destruct (Nat.eqb_spec i (n - 1)) as [->|_]; [|lra].
  assert (0 < INR (n - 1)) by (apply lt_0_INR; lia).
  field. lra.
Qed.

(** Broadcasting a scalar function over an array, read at one index. *)
Lemma nth_broadcast (f : R -> R) (a : list R) (i : nat) :
  (i < length a)%nat -> nth i (map f a) 0 = f (nth i a 0).
Proof.
  apply nth_map_at.
Qed.

End ArrayFacts.

(** ** The samples and the unclipped cut lines *)

Section GeometryFacts.

Variable c : Config.
Variable perimeter : R.

Lemma t_length : length (t perimeter) = 200%nat.
Proof. apply linspace_length. Qed.

Lemma cut1_y_raw_length : length (cut1_y_raw c perimeter) = 200%nat.
Proof.
  unfold cut1_y_raw, np.radd, np.rmul, np.sin, np.subtract, np.divide.
  rewrite !length_map. apply t_length.
Qed.

Lemma cut2_y_raw_length : length (cut2_y_raw c perimeter) = 200%nat.
Proof.
  unfold cut2_y_raw, np.radd, np.rmul, np.sin, np.add, np.divide.
  rewrite !length_map. apply t_length.
Qed.

Lemma cut1_y_length : length (cut1_y c perimeter) = 200%nat.
Proof.
  unfold cut1_y, np.minimum, np.maximum.
  rewrite !length_map. apply cut1_y_raw_length.
Qed.

Lemma cut2_y_length : length (cut2_y c perimeter) = 200%nat.
Proof.
  unfold cut2_y, np.minimum, np.maximum.
  rewrite !length_map. apply cut2_y_raw_length.
Qed.

(** The unclipped lines at index [i], in terms of the sample at [i]. *)
Lemma cut1_y_raw_nth (i : nat) :
  (i < 200)%nat ->
  nth i (cut1_y_raw c perimeter) 0 =
  CUT1_START_HEIGHT c +
  amplitude1 c * (1 + sin (2 * PI * nth i (t perimeter) 0 / perimeter - PI / 2)).
Proof.
  intros Hi. unfold cut1_y_raw, np.radd, np.rmul, np.sin, np.subtract,
    np.divide, np.pi.
  repeat (rewrite nth_broadcast by (rewrite ?length_map, t_length; exact Hi)).
  reflexivity.
Qed.

Lemma cut2_y_raw_nth (i : nat) :
  (i < 200)%nat ->
  nth i (cut2_y_raw c perimeter) 0 =
  CUT2_START_HEIGHT c +
  amplitude2 c * (1 + sin (2 * PI * nth i (t perimeter) 0 / perimeter + PI / 2)).
Proof.
  intros Hi. unfold cut2_y_raw, np.radd, np.rmul, np.sin, np.add,
    np.divide, np.pi.
  repeat (rewrite nth_broadcast by (rewrite ?length_map, t_length; exact Hi)).
  reflexivity.
Qed.

Lemma cut1_y_nth (i : nat) :
  (i < 200)%nat ->
  nth i (cut1_y c perimeter) 0 =
  Rmin (Rmax (nth i (cut1_y_raw c perimeter) 0) 0) (HEIGHT c).
Proof.
  intros Hi. unfold cut1_y, np.minimum, np.maximum.
  repeat (rewrite nth_broadcast
            by (rewrite ?length_map, cut1_y_raw_length; exact Hi)).
  reflexivity.
Qed.

Lemma cut2_y_nth (i : nat) :
  (i < 200)%nat ->
  nth i (cut2_y c perimeter) 0 =
  Rmin (Rmax (nth i (cut2_y_raw c perimeter) 0) 0) (HEIGHT c).
Proof.
  intros Hi. unfold cut2_y, np.minimum, np.maximum.
  repeat (rewrite nth_broadcast
            by (rewrite ?length_map, cut2_y_raw_length; exact Hi)).
  reflexivity.
Qed.

Lemma t_nth (i : nat) :
  (i < 200)%nat -> nth i (t perimeter) 0 = INR i * (perimeter / 199).
Proof.
  intros Hi. unfold t. rewrite linspace_nth by lia.
  replace (200 - 1)%nat with 199%nat by reflexivity.
  replace (INR 199) with 199 by (simpl; lra).
  lra.
Qed.

Lemma t_first : nth 0 (t perimeter) 0 = 0.
Proof. rewrite t_nth by lia. simpl. lra. Qed.

Lemma t_last : nth 199 (t perimeter) 0 = perimeter.
Proof.
  unfold t. rewrite linspace_nth_stored by lia. reflexivity.
Qed.

End GeometryFacts.

(** ** Running the script *)

(** The rules of [behaves], statement by statement. *)
Section Behaviour.

Variable P : LogRecord -> Prop.
Variable E : string -> Prop.

Lemma behaves_ret {A : Type} (a : A) : behaves P E (ret a).
Proof.
  intros w. split; [|exact I]. exists []. cbn. now rewrite app_nil_r.
Qed.

Lemma behaves_bind {A B : Type} (m : Py A) (k : A -> Py B) :
  behaves P E m -> (forall a, behaves P E (k a)) -> behaves P E (bind m k).
Proof.
  intros Hm Hk w. unfold bind.
  destruct (Hm w) as [(recs & Hlog & HP) Hout].
  destruct (m w) as [[a|e] w1]; cbn [fst snd] in *.
  - destruct (Hk a w1) as [(recs' & Hlog' & HP') Hout'].
    split; [|exact Hout'].
    exists (recs ++ recs'). rewrite Hlog', Hlog, app_assoc.
    split; [reflexivity|]. apply Forall_app. now split.
  - split; [|exact Hout]. now exists recs.
Qed.

Lemma behaves_emit (l : Level) (m : Message) :
  P {| level := l; message := m |} -> behaves P E (logging.emit l m).
Proof.
  intros HP w. split; [|exact I].
  exists [{| level := l; message := m |}]. cbn. split; [reflexivity|].
  now constructor.
Qed.

Lemma behaves_request (lib : Library) (req : Call) (effect : World -> World) :
  (forall r, P (library_record r)) ->
  (forall w, log (effect w) = log w) ->
  (forall msg, snd (lib req) = Some msg -> E msg) ->
  behaves P E (plt.request lib req effect).
Proof.
  intros HP Heff HE w. unfold plt.request.
  destruct (snd (lib req)) as [msg|] eqn:Hr; cbn [fst snd].
  - split; [|now apply HE].
    exists (map library_record (fst (lib req))). cbn. split; [reflexivity|].
    apply Forall_map, Forall_forall. intros r _. apply HP.
  - split; [|exact I].
    exists (map library_record (fst (lib req))). rewrite Heff. cbn.
    split; [reflexivity|].
    apply Forall_map, Forall_forall. intros r _. apply HP.
Qed.

Lemma behaves_measure (kernel : R -> R -> string + R) (rx ry : R) :
  (forall msg, kernel rx ry = inl msg -> E msg) ->
  behaves P E (measure_ellipse kernel rx ry).
Proof.
  intros HE w. unfold measure_ellipse.
  destruct (kernel rx ry) as [msg|len]; cbn.
  - split; [|now apply HE]. exists []. now rewrite app_nil_r.
  - split; [|exact I]. exists []. now rewrite app_nil_r.
Qed.

(** [try: body except Exception as e:] with a handler that logs the message
    and the traceback at ERROR level and exits with status 1. *)
Lemma try_except_exits (body : Py unit) (prefix : string) (w : World) :
  behaves P E body ->
  let r := try_except body
             (fun e =>
                bind (logging.error [Lit prefix; Lit e])
                  (fun _ => bind (logging.error [Traceback])
                              (fun _ => sys.exit 1))) w in
  (fst r = Return tt /\ r = body w) \/
  (fst r = Raise (SystemExit 1) /\
   exists msg recs,
     E msg /\ Forall P recs /\
     fst (body w) = Raise (Exception msg) /\
     log (snd r) = log w ++ recs ++
       [ {| level := ERROR; message := [Lit prefix; Lit msg] |};
         {| level := ERROR; message := [Traceback] |} ]).
Proof.
  intros Hb r. subst r. unfold try_except.
  destruct (Hb w) as [(recs & Hlog & HP) Hout].
  destruct (body w) as [[[]|[msg|code]] w1]; cbn [fst snd] in *.
  - left. now split.
  - right. split; [reflexivity|]. exists msg, recs.
    split; [exact Hout|]. split; [exact HP|]. split; [reflexivity|].
    cbn. rewrite Hlog, <- !app_assoc. reflexivity.
  - contradiction.
Qed.

End Behaviour.

Ltac script_behaves solve_record solve_message :=
  repeat first
    [ apply behaves_bind; [|intros ?]
    | apply behaves_emit; solve_record
    | apply behaves_measure; solve_message
    | apply behaves_request;
        [ intros ?; solve_record | intros []; reflexivity | solve_message ]
    | apply behaves_ret ].

Section RunFacts.

Variable ellipse_length : R -> R -> string + R.
Variable matplotlib : Library.
Variable c : Config.

Lemma try_behaves_blamed :
  behaves (fun _ => True) (blamed ellipse_length matplotlib c)
    (calculate_net_geometry_try ellipse_length matplotlib c).
Proof.
  unfold calculate_net_geometry_try, logging.info, logging.debug,
    plt.subplots, plt.plot, plt.text, plt.style, plt.savefig, plt.show.
  script_behaves ltac:(exact I)
    ltac:(intros msg Hmsg; first [ now left | right; eexists; exact Hmsg ]).
Qed.

(** Every run ends normally or with exit status 1, and in the second case
    an external call raised and the handler's two records close the log. *)
Lemma run_outcome (w : World) :
  (fst (calculate_net_geometry ellipse_length matplotlib c w) = Return tt /\
   exists recs,
     log (snd (calculate_net_geometry ellipse_length matplotlib c w))
     = log w ++ recs) \/
  (fst (calculate_net_geometry ellipse_length matplotlib c w)
   = Raise (SystemExit 1) /\
   exists msg recs,
     blamed ellipse_length matplotlib c msg /\
     log (snd (calculate_net_geometry ellipse_length matplotlib c w))
     = log w ++ recs ++ error_records msg).
Proof.
  unfold calculate_net_geometry.
  destruct (try_except_exits _ _ _ "Error occurred: " w try_behaves_blamed)
    as [[Hret Heq]|[Hexit (msg & recs & Hb & _ & _ & Hlog)]].
  - left. split; [exact Hret|]. rewrite Heq.
    destruct (try_behaves_blamed w) as [(recs & Hlog & _) _]. now exists recs.
  - right. split; [exact Hexit|]. now exists msg, recs.
Qed.

Ltac step_script :=
  cbv [calculate_net_geometry calculate_net_geometry_try try_except bind ret
       raise measure_ellipse
       logging.info logging.debug logging.error logging.emit
       plt.request plt.subplots plt.plot plt.text plt.style plt.savefig
       plt.show plt.draw plt.decorate sys.exit
       log artists styling saved].



(** The whole world after a run in which the kernel raised. *)
Lemma world_raised (w : World) (msg : string) :
  ellipse_length (MINOR_AXIS c) (MAJOR_AXIS c) = inl msg ->
  calculate_net_geometry ellipse_length matplotlib c w =
  (Raise (SystemExit 1),
   {| log := log w ++ records_raised msg;
      artists := artists w;
      styling := styling w;
      saved := saved w |}).
Proof.
  intros Hk. destruct w as [l a st s]. step_script. rewrite Hk. step_script.
  rewrite <- !app_assoc. reflexivity.
Qed.

End RunFacts.

Section MoreRunFacts.

Variable ellipse_length : R -> R -> string + R.
Variable matplotlib : Library.
Variable c : Config.




(** No record of a run reads "Main execution error". *)
Lemma try_behaves_not_main_error :
  behaves not_main_error (fun _ => True)
    (calculate_net_geometry_try ellipse_length matplotlib c).
Proof.
  unfold calculate_net_geometry_try, logging.info, logging.debug,
    plt.subplots, plt.plot, plt.text, plt.style, plt.savefig, plt.show.
  script_behaves ltac:(intros ? ?; cbn; discriminate) ltac:(intros; exact I).
Qed.

Lemma run_appends_no_main_error (w : World) :
  exists recs,
    log (snd (calculate_net_geometry ellipse_length matplotlib c w))
    = log w ++ recs /\
    Forall not_main_error recs.
Proof.
  unfold calculate_net_geometry.
  destruct (try_except_exits _ _ _ "Error occurred: " w
              try_behaves_not_main_error)
    as [[_ Heq]|[_ (msg & recs & _ & HP & _ & Hlog)]].
  - rewrite Heq. destruct (try_behaves_not_main_error w) as [Hrecs _].
    exact Hrecs.
  - eexists. split; [exact Hlog|].
    apply Forall_app. split; [exact HP|].
    repeat constructor; intros ? ?; cbn; discriminate.
Qed.

End MoreRunFacts.

(** ** Trigonometry used by the cut lines *)

Section Trigonometry.

Lemma sin_start_line1 (p : R) : sin (2 * PI * 0 / p - PI / 2) = -1.
Proof.
  replace (2 * PI * 0 / p - PI / 2) with (- (PI / 2)) by (unfold Rdiv; ring).
  rewrite sin_neg, sin_PI2. reflexivity.
Qed.

Lemma sin_start_line2 (p : R) : sin (2 * PI * 0 / p + PI / 2) = 1.
Proof.
  replace (2 * PI * 0 / p + PI / 2) with (PI / 2) by (unfold Rdiv; ring).
  apply sin_PI2.
Qed.

(** One full period later the sine is back where it started. *)
Lemma sin_end_line1 (p : R) : p <> 0 -> sin (2 * PI * p / p - PI / 2) = -1.
Proof.
  intros Hp.
  replace (2 * PI * p / p - PI / 2) with (- (PI / 2) + 2 * INR 1 * PI)
    by (simpl; field; exact Hp).
  rewrite sin_period, sin_neg, sin_PI2. reflexivity.
Qed.

Lemma sin_end_line2 (p : R) : p <> 0 -> sin (2 * PI * p / p + PI / 2) = 1.
Proof.
  intros Hp.
  replace (2 * PI * p / p + PI / 2) with (PI / 2 + 2 * INR 1 * PI)
    by (simpl; field; exact Hp).
  rewrite sin_period. apply sin_PI2.
Qed.

(** The tangent of an angle given in degrees, by the sign of the angle. *)
Lemma tan_radians_nonneg (a : R) : 0 <= a < 90 -> 0 <= np.tan (np.radians a).
Proof.
  intros [H0 H90]. unfold np.tan, np.radians.
  destruct (Req_dec a 0) as [->|Hne].
  - replace (0 * PI / 180) with 0 by lra. rewrite tan_0. lra.
  - pose proof PI_RGT_0 as Hpi. left. apply tan_gt_0; nra.
Qed.

Lemma tan_radians_neg (a : R) : -90 < a < 0 -> np.tan (np.radians a) < 0.
Proof.
  intros [H90 H0]. unfold np.tan, np.radians.
  pose proof PI_RGT_0 as Hpi. apply tan_lt_0; nra.
Qed.

Lemma tan_radians_0 : np.tan (np.radians 0) = 0.
Proof.
  unfold np.tan, np.radians.
  replace (0 * PI / 180) with 0 by lra. apply tan_0.
Qed.

Lemma tan_radians_45 : np.tan (np.radians 45) = 1.
Proof.
  unfold np.tan, np.radians.
  replace (45 * PI / 180) with (PI / 4) by lra. apply tan_PI4.
Qed.

Lemma clip_bounds (y h : R) : 0 <= h -> 0 <= Rmin (Rmax y 0) h <= h.
Proof.
  intros Hh. split.
  - apply Rmin_glb; [apply Rmax_r | exact Hh].
  - apply Rmin_r.
Qed.

Lemma clip_below (y h : R) : 0 <= h -> y < 0 -> Rmin (Rmax y 0) h = 0.
Proof.
  intros Hh Hy. rewrite Rmax_right by lra. apply Rmin_left. exact Hh.
Qed.

Lemma clip_above (y h : R) : 0 <= h -> h < y -> Rmin (Rmax y 0) h = h.
Proof.
  intros Hh Hy. rewrite Rmax_left by lra. apply Rmin_right. lra.
Qed.

Lemma clip_inside (y h : R) : 0 <= y <= h -> Rmin (Rmax y 0) h = y.
Proof.
  intros [H0 Hh]. rewrite Rmax_left by lra. apply Rmin_left. exact Hh.
Qed.

End Trigonometry.

(** ** The claims *)

(** C1.  For every perimeter > 0, cut angles in (-90, 90) degrees and real
    start heights, the unclipped cut lines at each sample [t_i] are
    [cut1StartHeight + amplitude1 * (1 + sin(2 pi t_i / perimeter - pi/2))]
    and
    [cut2StartHeight + amplitude2 * (1 + sin(2 pi t_i / perimeter + pi/2))],
    with [amplitude_k = majorAxis * tan(radians(cutKAngle))]. *)
Theorem C1_cut_line_formulas (c : Config) (perimeter : R) (i : nat) :
  0 < perimeter ->
  -90 < CUT1_ANGLE c < 90 ->
  -90 < CUT2_ANGLE c < 90 ->
  (i < 200)%nat ->
  let t_i := nth i (t perimeter) 0 in
  amplitude1 c = MAJOR_AXIS c * tan (CUT1_ANGLE c * PI / 180) /\
  amplitude2 c = MAJOR_AXIS c * tan (CUT2_ANGLE c * PI / 180) /\
  nth i (cut1_y_raw c perimeter) 0 =
    CUT1_START_HEIGHT c +
    amplitude1 c * (1 + sin (2 * PI * t_i / perimeter - PI / 2)) /\
  nth i (cut2_y_raw c perimeter) 0 =
    CUT2_START_HEIGHT c +
    amplitude2 c * (1 + sin (2 * PI * t_i / perimeter + PI / 2)).
Proof.
  intros _ _ _ Hi t_i. subst t_i. repeat split.
  - apply cut1_y_raw_nth, Hi.
  - apply cut2_y_raw_nth, Hi.
Qed.

Lemma C1_cut_line_formulas_witness :
  nth 7 (cut1_y_raw script_config 1) 0 =
    3 + amplitude1 script_config *
        (1 + sin (2 * PI * nth 7 (t 1) 0 / 1 - PI / 2)).
Proof.
  refine (proj1 (proj2 (proj2
    (C1_cut_line_formulas script_config 1 7 _ _ _ _)))); simpl; try lra; lia.
Defined.

(** C2.  For valid inputs (positive axes and height, angles in (-90, 90)
    degrees, any start heights) every value of the returned cut lines lies
    in the closed interval [0, height]; a value below 0 has become 0 and a
    value above height has become height. *)
Theorem C2_clipping_invariant (c : Config) (perimeter : R) :
  0 < MAJOR_AXIS c -> 0 < MINOR_AXIS c -> 0 < HEIGHT c ->
  0 < perimeter ->
  -90 < CUT1_ANGLE c < 90 ->
  -90 < CUT2_ANGLE c < 90 ->
  Forall (fun y => 0 <= y <= HEIGHT c) (cut1_y c perimeter) /\
  Forall (fun y => 0 <= y <= HEIGHT c) (cut2_y c perimeter) /\
  (forall i, (i < 200)%nat ->
     let raw := nth i (cut1_y_raw c perimeter) 0 in
     let y := nth i (cut1_y c perimeter) 0 in
     (raw < 0 -> y = 0) /\ (HEIGHT c < raw -> y = HEIGHT c) /\
     (0 <= raw <= HEIGHT c -> y = raw)) /\
  (forall i, (i < 200)%nat ->
     let raw := nth i (cut2_y_raw c perimeter) 0 in
     let y := nth i (cut2_y c perimeter) 0 in
     (raw < 0 -> y = 0) /\ (HEIGHT c < raw -> y = HEIGHT c) /\
     (0 <= raw <= HEIGHT c -> y = raw)).
Proof.
  intros _ _ Hh _ _ _.
  assert (Hh0 : 0 <= HEIGHT c) by lra.
  split; [|split; [|split]].
  - unfold cut1_y, np.minimum, np.maximum. rewrite map_map.
    apply Forall_map, Forall_forall. intros y _. now apply clip_bounds.
  - unfold cut2_y, np.minimum, np.maximum. rewrite map_map.
    apply Forall_map, Forall_forall. intros y _. now apply clip_bounds.
  - intros i Hi raw y. subst raw y. rewrite cut1_y_nth by assumption.
    split; [|split]; intros Hraw.
    + now apply clip_below.
    + now apply clip_above.
    + now apply clip_inside.
  - intros i Hi raw y. subst raw y. rewrite cut2_y_nth by assumption.
    split; [|split]; intros Hraw.
    + now apply clip_below.
    + now apply clip_above.
    + now apply clip_inside.
Qed.

Lemma C2_clipping_invariant_witness :
  Forall (fun y => 0 <= y <= 25) (cut1_y script_config 1) /\
  Forall (fun y => 0 <= y <= 25) (cut2_y script_config 1).
Proof.
  assert (H : 0 < 12 /\ 0 < 4 /\ 0 < 25 /\ 0 < 1 /\ -90 < 45 < 90) by lra.
  destruct H as (Ha & Hb & Hh & Hp & Hang).
  destruct (C2_clipping_invariant script_config 1 Ha Hb Hh Hp Hang Hang)
    as (H1 & H2 & _).
  exact (conj H1 H2).
Defined.




(** C4.  For positive axes and height the samples are exactly 200 values,
    evenly spaced over [0, perimeter]: the first is 0, the last is the
    perimeter, and they are strictly increasing. *)
Theorem C4_samples (c : Config) (perimeter : R) :
  0 < MAJOR_AXIS c -> 0 < MINOR_AXIS c -> 0 < HEIGHT c ->
  0 < perimeter ->
  let s := samples (net_of c perimeter) in
  length s = 200%nat /\
  nth 0 s 0 = 0 /\
  nth 199 s 0 = perimeter /\
  (forall i, (i < 199)%nat -> nth (S i) s 0 - nth i s 0 = perimeter / 199) /\
  (forall i j, (i < j)%nat -> (j < 200)%nat -> nth i s 0 < nth j s 0).
Proof.
  intros _ _ _ Hp s. subst s. cbn [samples net_of].
  split; [|split; [|split; [|split]]].
  - apply t_length.
  - apply t_first.
  - apply t_last.
  - intros i Hi. rewrite !t_nth by lia. rewrite S_INR. lra.
  - intros i j Hij Hj. rewrite !t_nth by lia.
    apply lt_INR in Hij. nra.
Qed.

Lemma C4_samples_witness :
  length (samples (net_of script_config 1)) = 200%nat /\
  nth 0 (samples (net_of script_config 1)) 0 = 0 /\
  nth 199 (samples (net_of script_config 1)) 0 = 1.
Proof.
  assert (H : 0 < 12 /\ 0 < 4 /\ 0 < 25 /\ 0 < 1) by lra.
  destruct H as (Ha & Hb & Hh & Hp).
  destruct (C4_samples script_config 1 Ha Hb Hh Hp) as (H1 & H2 & H3 & _).
  exact (conj H1 (conj H2 H3)).
Defined.



(** C6 as the specification states it: with the script's constants the
    unclipped second cut line at t = 0 is 25 and is clipped to exactly 25.
    In float64 [np.tan(np.radians(45))] is 0.9999999999999999, the amplitude
    is 11.999999999999998, and the value at t = 0 is 24.999999999999996
    before and after clipping: not 25. *)
Lemma C6_counterexample :
  f64.CUT_ANGLE_RADIANS = f64.nearest_quarter_pi /\
  f64.amplitude f64.MAJOR_AXIS f64.tan_radians_45 = f64.just_below_12 /\
  f64.cut2_y_raw_start = f64.just_below_25 /\
  PrimFloat.eqb f64.cut2_y_raw_start f64.HEIGHT = false /\
  PrimFloat.ltb f64.cut2_y_raw_start f64.HEIGHT = true /\
  f64.cut2_y_start = f64.just_below_25 /\
  PrimFloat.eqb f64.cut2_y_start f64.HEIGHT = false.
Proof. repeat split; vm_compute; reflexivity. Qed.

(** C6, amended.  With the parameters of the script (majorAxis 12, minorAxis
    4, height 25, both angles 45 degrees, start heights 3 and 1), at the
    sample t = 0 the unclipped first cut line is 3 and stays 3 after
    clipping; the unclipped second cut line is
    1 + 2 * 12 * tan(radians(45)), which lies in [0, height], so clipping
    leaves it as it is.  In float64 the same holds: the first line is 3
    before and after clipping, the second is not above 25 and is left as it
    is. *)
Theorem C6_start_values_within_height (perimeter : R) :
  0 < perimeter ->
  nth 0 (t perimeter) 0 = 0 /\
  nth 0 (cut1_y_raw script_config perimeter) 0 = 3 /\
  nth 0 (cut1_y script_config perimeter) 0 = 3 /\
  nth 0 (cut2_y_raw script_config perimeter) 0
    = 1 + 2 * (12 * tan (45 * PI / 180)) /\
  0 <= nth 0 (cut2_y_raw script_config perimeter) 0 <= HEIGHT script_config /\
  nth 0 (cut2_y script_config perimeter) 0
    = nth 0 (cut2_y_raw script_config perimeter) 0 /\
  f64.cut1_y_raw_start = f64.CUT1_START_HEIGHT /\
  f64.cut1_y_start = f64.CUT1_START_HEIGHT /\
  PrimFloat.leb f64.cut2_y_raw_start f64.HEIGHT = true /\
  f64.cut2_y_start = f64.cut2_y_raw_start.
Proof.
  intros _.
  assert (H1 : nth 0 (cut1_y_raw script_config perimeter) 0 = 3).
  { rewrite cut1_y_raw_nth, t_first, sin_start_line1 by lia.
    cbn [CUT1_START_HEIGHT script_config]. lra. }
  assert (H2 : nth 0 (cut2_y_raw script_config perimeter) 0
               = 1 + 2 * (12 * tan (45 * PI / 180))).
  { rewrite cut2_y_raw_nth, t_first, sin_start_line2 by lia.
    unfold amplitude2, np.tan, np.radians.
    cbn [CUT2_START_HEIGHT CUT2_ANGLE MAJOR_AXIS script_config]. lra. }
  assert (H3 : 0 <= nth 0 (cut2_y_raw script_config perimeter) 0
               <= HEIGHT script_config).
  { rewrite H2. pose proof tan_radians_45 as E.
    unfold np.tan, np.radians in E. rewrite E.
    cbn [HEIGHT script_config]. lra. }
  split; [apply t_first|].
  split; [exact H1|].
  split; [rewrite cut1_y_nth, H1 by lia;
          cbn [HEIGHT script_config]; apply clip_inside; lra|].
  split; [exact H2|].
  split; [exact H3|].
  split; [rewrite cut2_y_nth by lia; apply clip_inside; exact H3|].
  repeat split; vm_compute; reflexivity.
Qed.

Lemma C6_start_values_within_height_witness :
  nth 0 (cut1_y script_config 1) 0 = 3 /\
  nth 0 (cut2_y script_config 1) 0 = nth 0 (cut2_y_raw script_config 1) 0.
Proof.
  assert (Hp : 0 < 1) by lra.
  destruct (C6_start_values_within_height 1 Hp)
    as (_ & _ & H1 & _ & _ & H2 & _).
  exact (conj H1 H2).
Defined.

(** C7.  For every perimeter > 0 and valid angles and start heights, the
    unclipped first cut line at t = 0 is exactly cut1StartHeight (the sine is
    -1 there, so the amplitude term vanishes) and the unclipped second cut
    line at t = 0 is exactly cut2StartHeight + 2 * amplitude2 (the sine is 1
    there). *)
Theorem C7_values_at_start (c : Config) (perimeter : R) :
  0 < perimeter ->
  -90 < CUT1_ANGLE c < 90 ->
  -90 < CUT2_ANGLE c < 90 ->
  nth 0 (t perimeter) 0 = 0 /\
  nth 0 (cut1_y_raw c perimeter) 0 = CUT1_START_HEIGHT c /\
  nth 0 (cut2_y_raw c perimeter) 0 = CUT2_START_HEIGHT c + 2 * amplitude2 c.
Proof.
  intros _ _ _. split; [apply t_first|]. split.
  - rewrite cut1_y_raw_nth, t_first, sin_start_line1 by lia. lra.
  - rewrite cut2_y_raw_nth, t_first, sin_start_line2 by lia. lra.
Qed.

Lemma C7_values_at_start_witness :
  nth 0 (cut1_y_raw script_config 1) 0 = 3 /\
  nth 0 (cut2_y_raw script_config 1) 0 = 1 + 2 * amplitude2 script_config.
Proof.
  assert (H : 0 < 1 /\ -90 < 45 < 90) by lra.
  destruct H as (Hp & Hang).
  destruct (C7_values_at_start script_config 1 Hp Hang Hang) as (_ & H1 & H2).
  exact (conj H1 H2).
Defined.

(** C8.  A cut angle of exactly 0 degrees gives amplitude 0, and the cut
    line of that angle is then constant over the whole sweep: every sample
    has the start height of that line, clipped to [0, height].  With both
    angles 0 both lines are flat. *)
Theorem C8_level_cut_is_flat (c : Config) (perimeter : R) :
  0 < MAJOR_AXIS c -> 0 < MINOR_AXIS c -> 0 < HEIGHT c ->
  0 < perimeter ->
  (CUT1_ANGLE c = 0 ->
     amplitude1 c = 0 /\
     forall i, (i < 200)%nat ->
       nth i (cut1_y_raw c perimeter) 0 = CUT1_START_HEIGHT c /\
       nth i (cut1_y c perimeter) 0
         = Rmin (Rmax (CUT1_START_HEIGHT c) 0) (HEIGHT c)) /\
  (CUT2_ANGLE c = 0 ->
     amplitude2 c = 0 /\
     forall i, (i < 200)%nat ->
       nth i (cut2_y_raw c perimeter) 0 = CUT2_START_HEIGHT c /\
       nth i (cut2_y c perimeter) 0
         = Rmin (Rmax (CUT2_START_HEIGHT c) 0) (HEIGHT c)).
Proof.
  intros _ _ _ _. split; intros Hangle.
  - assert (Ha : amplitude1 c = 0).
    { unfold amplitude1. rewrite Hangle, tan_radians_0. lra. }
    split; [exact Ha|]. intros i Hi.
    assert (Hraw : nth i (cut1_y_raw c perimeter) 0 = CUT1_START_HEIGHT c).
    { rewrite cut1_y_raw_nth, Ha by assumption. lra. }
    split; [exact Hraw|]. rewrite cut1_y_nth, Hraw by assumption. reflexivity.
  - assert (Ha : amplitude2 c = 0).
    { unfold amplitude2. rewrite Hangle, tan_radians_0. lra. }
    split; [exact Ha|]. intros i Hi.
    assert (Hraw : nth i (cut2_y_raw c perimeter) 0 = CUT2_START_HEIGHT c).
    { rewrite cut2_y_raw_nth, Ha by assumption. lra. }
    split; [exact Hraw|]. rewrite cut2_y_nth, Hraw by assumption. reflexivity.
Qed.

Lemma C8_level_cut_is_flat_witness :
  amplitude1 level_config = 0 /\ amplitude2 level_config = 0 /\
  nth 57 (cut1_y level_config 1) 0 = Rmin (Rmax 3 0) 25 /\
  nth 57 (cut2_y level_config 1) 0 = Rmin (Rmax 1 0) 25.
Proof.
  assert (H : 0 < 12 /\ 0 < 4 /\ 0 < 25 /\ 0 < 1) by lra.
  destruct H as (Ha & Hb & Hh & Hp).
  destruct (C8_level_cut_is_flat level_config 1 Ha Hb Hh Hp) as (H1 & H2).
  destruct (H1 eq_refl) as (A1 & F1). destruct (H2 eq_refl) as (A2 & F2).
  assert (Hi : (57 < 200)%nat) by lia.
  exact (conj A1 (conj A2 (conj (proj2 (F1 57%nat Hi)) (proj2 (F2 57%nat Hi))))).
Defined.

(** C9.  For every perimeter > 0 and valid parameters each cut line has the
    same value at t = 0 and at t = perimeter, before and after clipping: the
    sine runs through exactly one period over [0, perimeter], so the first
    and the last point of each line have the same height. *)
Theorem C9_lines_close_up (c : Config) (perimeter : R) :
  0 < MAJOR_AXIS c -> 0 < MINOR_AXIS c -> 0 < HEIGHT c ->
  0 < perimeter ->
  -90 < CUT1_ANGLE c < 90 ->
  -90 < CUT2_ANGLE c < 90 ->
  nth 0 (t perimeter) 0 = 0 /\
  nth 199 (t perimeter) 0 = perimeter /\
  nth 199 (cut1_y_raw c perimeter) 0 = nth 0 (cut1_y_raw c perimeter) 0 /\
  nth 199 (cut2_y_raw c perimeter) 0 = nth 0 (cut2_y_raw c perimeter) 0 /\
  nth 199 (cut1_y c perimeter) 0 = nth 0 (cut1_y c perimeter) 0 /\
  nth 199 (cut2_y c perimeter) 0 = nth 0 (cut2_y c perimeter) 0.
Proof.
  intros _ _ _ Hp _ _.
  assert (Hp0 : perimeter <> 0) by lra.
  assert (H1 : nth 199 (cut1_y_raw c perimeter) 0
               = nth 0 (cut1_y_raw c perimeter) 0).
  { rewrite !cut1_y_raw_nth, t_first, t_last by lia.
    now rewrite sin_start_line1, sin_end_line1. }
  assert (H2 : nth 199 (cut2_y_raw c perimeter) 0
               = nth 0 (cut2_y_raw c perimeter) 0).
  { rewrite !cut2_y_raw_nth, t_first, t_last by lia.
    now rewrite sin_start_line2, sin_end_line2. }
  split; [apply t_first|]. split; [apply t_last|].
  split; [exact H1|]. split; [exact H2|]. split.
  - rewrite !cut1_y_nth, H1 by lia. reflexivity.
  - rewrite !cut2_y_nth, H2 by lia. reflexivity.
Qed.

Lemma C9_lines_close_up_witness :
  nth 199 (cut1_y script_config 1) 0 = nth 0 (cut1_y script_config 1) 0 /\
  nth 199 (cut2_y script_config 1) 0 = nth 0 (cut2_y script_config 1) 0.
Proof.
  assert (H : 0 < 12 /\ 0 < 4 /\ 0 < 25 /\ 0 < 1 /\ -90 < 45 < 90) by lra.
  destruct H as (Ha & Hb & Hh & Hp & Hang).
  destruct (C9_lines_close_up script_config 1 Ha Hb Hh Hp Hang Hang)
    as (_ & _ & _ & _ & H1 & H2).
  exact (conj H1 H2).
Defined.

(** The unclipped lines stay between their two extreme values. *)
Lemma swing_between (s a x : R) :
  (0 <= a -> s <= s + a * (1 + sin x) <= s + 2 * a) /\
  (a <= 0 -> s + 2 * a <= s + a * (1 + sin x) <= s).
Proof.
  pose proof (SIN_bound x) as [Hlo Hhi]. split; intros Ha; split; nra.
Qed.

(** C10.  For a cut angle in [0, 90) degrees every unclipped value of that
    cut line lies in [cutKStartHeight, cutKStartHeight + 2 * amplitude_k]:
    before clipping the line never dips below its start height, and the
    first cut line attains that minimum at t = 0.  For a negative angle the
    interval is the reverse one,
    [cutKStartHeight + 2 * amplitude_k, cutKStartHeight]. *)
Theorem C10_unclipped_range (c : Config) (perimeter : R) :
  0 < MAJOR_AXIS c -> 0 < MINOR_AXIS c -> 0 < HEIGHT c ->
  0 < perimeter ->
  (0 <= CUT1_ANGLE c < 90 ->
     0 <= amplitude1 c /\
     nth 0 (cut1_y_raw c perimeter) 0 = CUT1_START_HEIGHT c /\
     forall i, (i < 200)%nat ->
       CUT1_START_HEIGHT c <= nth i (cut1_y_raw c perimeter) 0
         <= CUT1_START_HEIGHT c + 2 * amplitude1 c) /\
  (0 <= CUT2_ANGLE c < 90 ->
     0 <= amplitude2 c /\
     forall i, (i < 200)%nat ->
       CUT2_START_HEIGHT c <= nth i (cut2_y_raw c perimeter) 0
         <= CUT2_START_HEIGHT c + 2 * amplitude2 c) /\
  (-90 < CUT1_ANGLE c < 0 ->
     amplitude1 c < 0 /\
     forall i, (i < 200)%nat ->
       CUT1_START_HEIGHT c + 2 * amplitude1 c
         <= nth i (cut1_y_raw c perimeter) 0 <= CUT1_START_HEIGHT c) /\
  (-90 < CUT2_ANGLE c < 0 ->
     amplitude2 c < 0 /\
     forall i, (i < 200)%nat ->
       CUT2_START_HEIGHT c + 2 * amplitude2 c
         <= nth i (cut2_y_raw c perimeter) 0 <= CUT2_START_HEIGHT c).
Proof.
  intros Ha _ _ _. split; [|split; [|split]]; intros Hangle.
  - assert (Hamp : 0 <= amplitude1 c).
    { unfold amplitude1. pose proof (tan_radians_nonneg _ Hangle). nra. }
    split; [exact Hamp|]. split.
    + rewrite cut1_y_raw_nth, t_first, sin_start_line1 by lia. lra.
    + intros i Hi. rewrite cut1_y_raw_nth by assumption.
      now apply swing_between.
  - assert (Hamp : 0 <= amplitude2 c).
    { unfold amplitude2. pose proof (tan_radians_nonneg _ Hangle). nra. }
    split; [exact Hamp|].
    intros i Hi. rewrite cut2_y_raw_nth by assumption.
    now apply swing_between.
  - assert (Hamp : amplitude1 c < 0).
    { unfold amplitude1. pose proof (tan_radians_neg _ Hangle). nra. }
    split; [exact Hamp|].
    intros i Hi. rewrite cut1_y_raw_nth by assumption.
    apply swing_between. lra.
  - assert (Hamp : amplitude2 c < 0).
    { unfold amplitude2. pose proof (tan_radians_neg _ Hangle). nra. }
    split; [exact Hamp|].
    intros i Hi. rewrite cut2_y_raw_nth by assumption.
    apply swing_between. lra.
Qed.

Lemma C10_unclipped_range_witness :
  3 <= nth 120 (cut1_y_raw script_config 1) 0
    <= 3 + 2 * amplitude1 script_config /\
  1 <= nth 120 (cut2_y_raw script_config 1) 0
    <= 1 + 2 * amplitude2 script_config.
Proof.
  assert (H : 0 < 12 /\ 0 < 4 /\ 0 < 25 /\ 0 < 1 /\ 0 <= 45 < 90) by lra.
  destruct H as (Ha & Hb & Hh & Hp & Hang).
  destruct (C10_unclipped_range script_config 1 Ha Hb Hh Hp)
    as (H1 & H2 & _).
  destruct (H1 Hang) as (_ & _ & F1). destruct (H2 Hang) as (_ & F2).
  assert (Hi : (120 < 200)%nat) by lia.
  exact (conj (F1 120%nat Hi) (conj (proj1 (F2 120%nat Hi)) (proj2 (F2 120%nat Hi)))).
Defined.

(** * Further properties of the script *)

(** ** What a run leaves in the world *)

(** X1.  When the kernel raises, the run exits with status 1, logs the
    kernel's message and the traceback at ERROR level after the two opening
    records, and neither draws nor saves anything. *)
Theorem X1_kernel_failure_is_logged_and_exits
    (ellipse_length : R -> R -> string + R) (matplotlib : Library)
    (c : Config) (w : World) (msg : string) :
  ellipse_length (MINOR_AXIS c) (MAJOR_AXIS c) = inl msg ->
  let r := calculate_net_geometry ellipse_length matplotlib c w in
  fst r = Raise (SystemExit 1) /\
  log (snd r) = log w ++ records_raised msg /\
  artists (snd r) = artists w /\
  saved (snd r) = saved w.
Proof.
  intros Hk r. subst r. rewrite (world_raised _ _ _ _ _ Hk).
  repeat split.
Qed.

Lemma X1_kernel_failure_is_logged_and_exits_witness :
  fst (calculate_net_geometry refusing_kernel chatty_library script_config
         empty_world)
    = Raise (SystemExit 1) /\
  saved (snd (calculate_net_geometry refusing_kernel chatty_library
                script_config empty_world))
    = [].
Proof.
  destruct (X1_kernel_failure_is_logged_and_exits refusing_kernel
              chatty_library script_config empty_world
              "degenerate ellipse"%string eq_refl)
    as (H1 & _ & _ & H2).
  exact (conj H1 H2).
Defined.





(** X4.  The handler of the main block never runs: [calculate_net_geometry]
    turns every exception into an exit, which [except Exception] lets
    through.  So the main block behaves as its body alone, it logs no
    "Main execution error", and it ends either normally or with exit
    status 1. *)
Theorem X4_main_handler_is_never_reached
    (ellipse_length : R -> R -> string + R) (matplotlib : Library)
    (c : Config) (w : World) :
  main ellipse_length matplotlib c w =
    bind (logging.info [Lit "Starting net generation"%string])
         (fun _ => calculate_net_geometry ellipse_length matplotlib c) w /\
  (fst (main ellipse_length matplotlib c w) = Return tt \/
   fst (main ellipse_length matplotlib c w) = Raise (SystemExit 1)) /\
  (forall msg, fst (main ellipse_length matplotlib c w) <> Raise (Exception msg)) /\
  (forall lvl msg rest,
     ~ In {| level := lvl;
             message := Lit "Main execution error: "%string :: Lit msg :: rest |}
          (skipn (length (log w))
             (log (snd (main ellipse_length matplotlib c w))))).
Proof.
  set (w1 := snd (logging.info [Lit "Starting net generation"%string] w)).
  assert (Hbody : bind (logging.info [Lit "Starting net generation"%string])
                    (fun _ => calculate_net_geometry ellipse_length matplotlib c) w
                  = calculate_net_geometry ellipse_length matplotlib c w1)
    by reflexivity.
  assert (Hout : fst (calculate_net_geometry ellipse_length matplotlib c w1)
                   = Return tt \/
                 fst (calculate_net_geometry ellipse_length matplotlib c w1)
                   = Raise (SystemExit 1)).
  { destruct (run_outcome ellipse_length matplotlib c w1)
      as [[Hret _]|[Hexit _]]; [now left|now right]. }
  assert (Hmain : main ellipse_length matplotlib c w =
                  calculate_net_geometry ellipse_length matplotlib c w1).
  { unfold main, try_except. rewrite Hbody.
    destruct (calculate_net_geometry ellipse_length matplotlib c w1)
      as [[[]|[msg|code]] w2]; cbn [fst] in Hout; try reflexivity.
    destruct Hout; discriminate. }
  rewrite Hmain. split; [now rewrite Hbody|]. split; [exact Hout|]. split.
  - intros msg Heq. destruct Hout as [H|H]; rewrite H in Heq; discriminate.
  - intros lvl msg rest Hin.
    destruct (run_appends_no_main_error ellipse_length matplotlib c w1)
      as (recs & Hlog & HP).
    rewrite Hlog in Hin.
    assert (Hlog1 : log w1 = log w ++
              [{| level := INFO;
                  message := [Lit "Starting net generation"%string] |}])
      by reflexivity.
    rewrite Hlog1, <- app_assoc in Hin.
    rewrite skipn_app, skipn_all, Nat.sub_diag in Hin. cbn in Hin.
    destruct Hin as [Heq|Hin]; [discriminate|].
    rewrite Forall_forall in HP. exact (HP _ Hin msg rest eq_refl).
Qed.



(** X6.  Every line handed to the plotting library has as many x values as
    y values: two for the bottom edge, 200 for each cut line.  This holds
    for every perimeter and every parameter. *)
Theorem X6_plotted_lines_are_well_shaped (c : Config) (perimeter : R) :
  Forall (fun a => match line_data a with
                   | Some (xs, ys) => length xs = length ys
                   | None => True
                   end) (drawn c perimeter) /\
  map (fun a => match line_data a with
                | Some (xs, ys) => Some (length xs, length ys)
                | None => None
                end) (drawn c perimeter)
  = [Some (2, 2); Some (200, 200); Some (200, 200); None; None]%nat.
Proof.
  unfold drawn. split.
  - repeat constructor; cbn [line_data];
      now rewrite t_length, ?cut1_y_length, ?cut2_y_length.
  - cbn [map line_data].
    now rewrite !t_length, cut1_y_length, cut2_y_length.
Qed.

(** ** The shape of the cut lines *)

Section ShapeFacts.

Variable c : Config.
Variable perimeter : R.
Hypothesis perimeter_nonzero : perimeter <> 0.

(** The angle swept at sample [i]. *)
Lemma swept_angle (i : nat) :
  (i < 200)%nat ->
  2 * PI * nth i (t perimeter) 0 / perimeter = 2 * PI * INR i / 199.
Proof.
  intros Hi. rewrite t_nth by assumption. field. exact perimeter_nonzero.
Qed.

(** The unclipped lines in closed form: a raised cosine each, in antiphase. *)
Lemma cut1_y_raw_cos (i : nat) :
  (i < 200)%nat ->
  nth i (cut1_y_raw c perimeter) 0 =
  CUT1_START_HEIGHT c + amplitude1 c * (1 - cos (2 * PI * INR i / 199)).
Proof.
  intros Hi. rewrite cut1_y_raw_nth, swept_angle by assumption.
  rewrite sin_minus, cos_PI2, sin_PI2. ring.
Qed.

Lemma cut2_y_raw_cos (i : nat) :
  (i < 200)%nat ->
  nth i (cut2_y_raw c perimeter) 0 =
  CUT2_START_HEIGHT c + amplitude2 c * (1 + cos (2 * PI * INR i / 199)).
Proof.
  intros Hi. rewrite cut2_y_raw_nth, swept_angle by assumption.
  rewrite sin_plus, cos_PI2, sin_PI2. ring.
Qed.

End ShapeFacts.

Section CosineFacts.

(** The swept angle of the mirrored sample. *)
Lemma cos_mirror (i : nat) :
  (i < 200)%nat ->
  cos (2 * PI * INR (199 - i) / 199) = cos (2 * PI * INR i / 199).
Proof.
  intros Hi. rewrite minus_INR by lia.
  replace (INR 199) with 199 by (simpl; lra).
  replace (2 * PI * (199 - INR i) / 199)
    with (- (2 * PI * INR i / 199) + 2 * INR 1 * PI) by (simpl; field).
  rewrite cos_period. apply cos_neg.
Qed.

Lemma swept_first_half (i : nat) :
  (i <= 99)%nat -> 0 <= 2 * PI * INR i / 199 < PI.
Proof.
  intros Hi. pose proof PI_RGT_0 as Hpi.
  pose proof (pos_INR i) as H0.
  assert (H99 : INR i <= 99).
  { apply le_INR in Hi. replace (INR 99) with 99 in Hi by (simpl; lra).
    exact Hi. }
  split; nra.
Qed.

(** Over the first half of the sweep the cosine falls strictly. *)
Lemma cos_falls_first_half (i j : nat) :
  (i < j)%nat -> (j <= 99)%nat ->
  cos (2 * PI * INR j / 199) < cos (2 * PI * INR i / 199).
Proof.
  intros Hij Hj. pose proof PI_RGT_0 as Hpi.
  destruct (swept_first_half i) as [Hi0 Hi1]; [lia|].
  destruct (swept_first_half j Hj) as [Hj0 Hj1].
  apply cos_decreasing_1; try lra.
  apply lt_INR in Hij. nra.
Qed.

(** No sample sits at half the perimeter: the cosine never reaches -1. *)
Lemma cos_above_minus_one (i : nat) :
  (i < 200)%nat -> -1 < cos (2 * PI * INR i / 199).
Proof.
  intros Hi. pose proof PI_RGT_0 as Hpi.
  assert (Hhalf : forall k, (k <= 99)%nat -> -1 < cos (2 * PI * INR k / 199)).
  { intros k Hk. destruct (swept_first_half k Hk) as [H0 H1].
    rewrite <- cos_PI. apply cos_decreasing_1; lra. }
  destruct (Nat.le_gt_cases i 99) as [Hle|Hgt].
  - now apply Hhalf.
  - rewrite <- cos_mirror by assumption. apply Hhalf. lia.
Qed.

(** Only the two end samples sit at the start of the sweep: elsewhere the
    cosine stays below 1. *)
Lemma cos_below_one (i : nat) :
  (0 < i)%nat -> (i < 199)%nat -> cos (2 * PI * INR i / 199) < 1.
Proof.
  intros Hi0 Hi. pose proof PI_RGT_0 as Hpi.
  assert (Hhalf : forall k, (0 < k)%nat -> (k <= 99)%nat ->
                            cos (2 * PI * INR k / 199) < 1).
  { intros k Hk0 Hk.
    replace 1 with (cos (2 * PI * INR 0 / 199))
      by (simpl; replace (2 * PI * 0 / 199) with 0 by lra; apply cos_0).
    apply cos_falls_first_half; lia. }
  destruct (Nat.le_gt_cases i 99) as [Hle|Hgt].
  - now apply Hhalf.
  - rewrite <- cos_mirror by lia. apply Hhalf; lia.
Qed.

End CosineFacts.

Section AmplitudeFacts.

Variable c : Config.

Lemma amplitude1_positive :
  0 < MAJOR_AXIS c -> 0 < CUT1_ANGLE c < 90 -> 0 < amplitude1 c.
Proof.
  intros Hm [H0 H90]. unfold amplitude1, np.tan, np.radians.
  pose proof PI_RGT_0 as Hpi.
  apply Rmult_lt_0_compat; [exact Hm|]. apply tan_gt_0; nra.
Qed.

Lemma amplitude2_positive :
  0 < MAJOR_AXIS c -> 0 < CUT2_ANGLE c < 90 -> 0 < amplitude2 c.
Proof.
  intros Hm [H0 H90]. unfold amplitude2, np.tan, np.radians.
  pose proof PI_RGT_0 as Hpi.
  apply Rmult_lt_0_compat; [exact Hm|]. apply tan_gt_0; nra.
Qed.

Lemma clip_monotone (x y h : R) :
  x <= y -> Rmin (Rmax x 0) h <= Rmin (Rmax y 0) h.
Proof.
  intros Hxy. apply Rle_min_compat_r, Rle_max_compat_r, Hxy.
Qed.

End AmplitudeFacts.

(** X10.  With a positive major axis and a cut angle strictly between 0 and
    90 degrees, cut line 1 rises strictly over the first hundred samples and
    falls strictly over the last hundred, before clipping; cut line 2 does
    the opposite.  After clipping the lines still rise and fall the same
    way, but no longer strictly. *)
Theorem X10_rise_and_fall (c : Config) (perimeter : R) (i j : nat) :
  0 < perimeter -> 0 < MAJOR_AXIS c ->
  (i < j)%nat -> (j < 200)%nat ->
  (0 < CUT1_ANGLE c < 90 ->
     ((j <= 99)%nat ->
        nth i (cut1_y_raw c perimeter) 0 < nth j (cut1_y_raw c perimeter) 0 /\
        nth i (cut1_y c perimeter) 0 <= nth j (cut1_y c perimeter) 0) /\
     ((100 <= i)%nat ->
        nth j (cut1_y_raw c perimeter) 0 < nth i (cut1_y_raw c perimeter) 0 /\
        nth j (cut1_y c perimeter) 0 <= nth i (cut1_y c perimeter) 0)) /\
  (0 < CUT2_ANGLE c < 90 ->
     ((j <= 99)%nat ->
        nth j (cut2_y_raw c perimeter) 0 < nth i (cut2_y_raw c perimeter) 0 /\
        nth j (cut2_y c perimeter) 0 <= nth i (cut2_y c perimeter) 0) /\
     ((100 <= i)%nat ->
        nth i (cut2_y_raw c perimeter) 0 < nth j (cut2_y_raw c perimeter) 0 /\
        nth i (cut2_y c perimeter) 0 <= nth j (cut2_y c perimeter) 0)).
Proof.
  intros Hp Hm Hij Hj.
  assert (Hp0 : perimeter <> 0) by lra.
  assert (Hi : (i < 200)%nat) by lia.
  assert (Hcos1 : (j <= 99)%nat ->
            cos (2 * PI * INR j / 199) < cos (2 * PI * INR i / 199)).
  { intros Hj99. now apply cos_falls_first_half. }
  assert (Hcos2 : (100 <= i)%nat ->
            cos (2 * PI * INR i / 199) < cos (2 * PI * INR j / 199)).
  { intros Hi100. rewrite <- (cos_mirror i), <- (cos_mirror j) by assumption.
    apply cos_falls_first_half; lia. }
  split; intros Hangle.
  - pose proof (amplitude1_positive c Hm Hangle) as Ha.
    split; intros Hhalf.
    + assert (Hraw : nth i (cut1_y_raw c perimeter) 0
                     < nth j (cut1_y_raw c perimeter) 0).
      { rewrite !cut1_y_raw_cos by assumption. specialize (Hcos1 Hhalf). nra. }
      split; [exact Hraw|]. rewrite !cut1_y_nth by assumption.
      apply clip_monotone. lra.
    + assert (Hraw : nth j (cut1_y_raw c perimeter) 0
                     < nth i (cut1_y_raw c perimeter) 0).
      { rewrite !cut1_y_raw_cos by assumption. specialize (Hcos2 Hhalf). nra. }
      split; [exact Hraw|]. rewrite !cut1_y_nth by assumption.
      apply clip_monotone. lra.
  - pose proof (amplitude2_positive c Hm Hangle) as Ha.
    split; intros Hhalf.
    + assert (Hraw : nth j (cut2_y_raw c perimeter) 0
                     < nth i (cut2_y_raw c perimeter) 0).
      { rewrite !cut2_y_raw_cos by assumption. specialize (Hcos1 Hhalf). nra. }
      split; [exact Hraw|]. rewrite !cut2_y_nth by assumption.
      apply clip_monotone. lra.
    + assert (Hraw : nth i (cut2_y_raw c perimeter) 0
                     < nth j (cut2_y_raw c perimeter) 0).
      { rewrite !cut2_y_raw_cos by assumption. specialize (Hcos2 Hhalf). nra. }
      split; [exact Hraw|]. rewrite !cut2_y_nth by assumption.
      apply clip_monotone. lra.
Qed.

Lemma X10_rise_and_fall_witness :
  nth 10 (cut1_y_raw script_config 50) 0 < nth 60 (cut1_y_raw script_config 50) 0 /\
  nth 60 (cut2_y_raw script_config 50) 0 < nth 10 (cut2_y_raw script_config 50) 0.
Proof.
  assert (H : 0 < 50 /\ 0 < 12 /\ 0 < 45 < 90) by lra.
  destruct H as (Hp & Hm & Hang).
  assert (Hij : (10 < 60)%nat) by lia. assert (Hj : (60 < 200)%nat) by lia.
  assert (Hh : (60 <= 99)%nat) by lia.
  destruct (X10_rise_and_fall script_config 50 10 60 Hp Hm Hij Hj) as (H1 & H2).
  exact (conj (proj1 (proj1 (H1 Hang) Hh)) (proj1 (proj1 (H2 Hang) Hh))).
Defined.

(** X11.  With 200 samples none falls on half the perimeter, so with a
    positive amplitude the sampled cut line 1 never reaches its peak
    cut1StartHeight + 2 * amplitude1 and the sampled cut line 2 never comes
    down to cut2StartHeight.  The highest sample of line 1 and the lowest of
    line 2 are the two middle ones, 99 and 100, and only the two end samples
    of line 1 are at its start height. *)
Theorem X11_peak_is_not_sampled (c : Config) (perimeter : R) (i : nat) :
  0 < perimeter -> 0 < MAJOR_AXIS c -> (i < 200)%nat ->
  (0 < CUT1_ANGLE c < 90 ->
     nth i (cut1_y_raw c perimeter) 0
       < CUT1_START_HEIGHT c + 2 * amplitude1 c /\
     nth i (cut1_y_raw c perimeter) 0 <= nth 99 (cut1_y_raw c perimeter) 0 /\
     nth 100 (cut1_y_raw c perimeter) 0 = nth 99 (cut1_y_raw c perimeter) 0 /\
     (nth i (cut1_y_raw c perimeter) 0 = CUT1_START_HEIGHT c <->
      i = 0%nat \/ i = 199%nat)) /\
  (0 < CUT2_ANGLE c < 90 ->
     CUT2_START_HEIGHT c < nth i (cut2_y_raw c perimeter) 0 /\
     nth 99 (cut2_y_raw c perimeter) 0 <= nth i (cut2_y_raw c perimeter) 0 /\
     nth 100 (cut2_y_raw c perimeter) 0 = nth 99 (cut2_y_raw c perimeter) 0).
Proof.
  intros Hp Hm Hi.
  assert (Hp0 : perimeter <> 0) by lra.
  pose proof (cos_above_minus_one i Hi) as Hgt.
  assert (Hmid : cos (2 * PI * INR 99 / 199) <= cos (2 * PI * INR i / 199)).
  { assert (Hhalf : forall k, (k <= 99)%nat ->
              cos (2 * PI * INR 99 / 199) <= cos (2 * PI * INR k / 199)).
    { intros k Hk. destruct (Nat.eq_dec k 99) as [->|Hne]; [lra|].
      left. apply cos_falls_first_half; lia. }
    destruct (Nat.le_gt_cases i 99) as [Hle|Hgt99].
    - now apply Hhalf.
    - rewrite <- (cos_mirror i) by assumption. apply Hhalf. lia. }
  assert (H100 : cos (2 * PI * INR 100 / 199) = cos (2 * PI * INR 99 / 199)).
  { rewrite <- (cos_mirror 100) by lia. reflexivity. }
  split; intros Hangle.
  - pose proof (amplitude1_positive c Hm Hangle) as Ha.
    rewrite !cut1_y_raw_cos by (assumption || lia).
    split; [nra|]. split; [nra|]. split; [now rewrite H100|].
    split.
    + intros Heq.
      destruct (Nat.eq_dec i 0) as [->|H0]; [now left|].
      destruct (Nat.eq_dec i 199) as [->|H199]; [now right|].
      exfalso. assert (Hlt : cos (2 * PI * INR i / 199) < 1)
        by (apply cos_below_one; lia).
      nra.
    + intros [->| ->].
      * simpl INR. replace (2 * PI * 0 / 199) with 0 by lra. rewrite cos_0. ring.
      * rewrite <- (cos_mirror 199) by lia. simpl INR.
        replace (2 * PI * 0 / 199) with 0 by lra. rewrite cos_0. ring.
  - pose proof (amplitude2_positive c Hm Hangle) as Ha.
    rewrite !cut2_y_raw_cos by (assumption || lia).
    split; [nra|]. split; [nra|]. now rewrite H100.
Qed.

Lemma X11_peak_is_not_sampled_witness :
  nth 99 (cut1_y_raw script_config 50) 0 < 3 + 2 * amplitude1 script_config /\
  1 < nth 99 (cut2_y_raw script_config 50) 0.
Proof.
  assert (H : 0 < 50 /\ 0 < 12 /\ 0 < 45 < 90) by lra.
  destruct H as (Hp & Hm & Hang).
  assert (Hi : (99 < 200)%nat) by lia.
  destruct (X11_peak_is_not_sampled script_config 50 99 Hp Hm Hi) as (H1 & H2).
  exact (conj (proj1 (H1 Hang)) (proj1 (H2 Hang))).
Defined.

(** X12.  With a height of 0 or below, clipping does not keep the lines in
    [0, height]: every value of both clipped lines is the height itself,
    whatever the angles and start heights are. *)
Theorem X12_nonpositive_height_flattens (c : Config) (perimeter : R) :
  0 < perimeter -> HEIGHT c <= 0 ->
  Forall (fun y => y = HEIGHT c) (cut1_y c perimeter) /\
  Forall (fun y => y = HEIGHT c) (cut2_y c perimeter) /\
  (HEIGHT c < 0 ->
     Forall (fun y => ~ 0 <= y) (cut1_y c perimeter) /\
     Forall (fun y => ~ 0 <= y) (cut2_y c perimeter)).
Proof.
  intros _ Hh.
  assert (Hclip : forall y, Rmin (Rmax y 0) (HEIGHT c) = HEIGHT c).
  { intros y. apply Rmin_right. pose proof (Rmax_r y 0). lra. }
  assert (H1 : Forall (fun y => y = HEIGHT c) (cut1_y c perimeter)).
  { unfold cut1_y, np.minimum, np.maximum. rewrite map_map.
    apply Forall_map, Forall_forall. intros y _. apply Hclip. }
  assert (H2 : Forall (fun y => y = HEIGHT c) (cut2_y c perimeter)).
  { unfold cut2_y, np.minimum, np.maximum. rewrite map_map.
    apply Forall_map, Forall_forall. intros y _. apply Hclip. }
  split; [exact H1|]. split; [exact H2|]. intros Hneg. split.
  - eapply Forall_impl; [|exact H1]. intros y ->. lra.
  - eapply Forall_impl; [|exact H2]. intros y ->. lra.
Qed.

Lemma X12_nonpositive_height_flattens_witness :
  Forall (fun y => y = -5) (cut1_y negative_height_config 50).
Proof.
  assert (H : 0 < 50 /\ -5 <= 0) by lra. destruct H as (Hp & Hh).
  exact (proj1 (X12_nonpositive_height_flattens negative_height_config 50 Hp Hh)).
Defined.

(** X13.  When the start height of a cut line and its start height plus
    twice its amplitude both lie in [0, height], clipping changes nothing:
    the clipped line is the unclipped line. *)
Theorem X13_no_clipping_when_the_cut_fits (c : Config) (perimeter : R) :
  0 < perimeter ->
  (0 <= CUT1_START_HEIGHT c <= HEIGHT c ->
   0 <= CUT1_START_HEIGHT c + 2 * amplitude1 c <= HEIGHT c ->
   cut1_y c perimeter = cut1_y_raw c perimeter) /\
  (0 <= CUT2_START_HEIGHT c <= HEIGHT c ->
   0 <= CUT2_START_HEIGHT c + 2 * amplitude2 c <= HEIGHT c ->
   cut2_y c perimeter = cut2_y_raw c perimeter).
Proof.
  intros _. split; intros Hs He.
  - apply (nth_ext _ _ 0 0).
    + now rewrite cut1_y_length, cut1_y_raw_length.
    + intros i Hi. rewrite cut1_y_length in Hi.
      rewrite cut1_y_nth by assumption. apply clip_inside.
      rewrite cut1_y_raw_nth by assumption.
      destruct (swing_between (CUT1_START_HEIGHT c) (amplitude1 c)
        (2 * PI * nth i (t perimeter) 0 / perimeter - PI / 2)) as [Hpos Hneg].
      destruct (Rle_dec 0 (amplitude1 c)) as [Ha|Ha].
      * specialize (Hpos Ha). lra.
      * assert (Ha' : amplitude1 c <= 0) by lra. specialize (Hneg Ha'). lra.
  - apply (nth_ext _ _ 0 0).
    + now rewrite cut2_y_length, cut2_y_raw_length.
    + intros i Hi. rewrite cut2_y_length in Hi.
      rewrite cut2_y_nth by assumption. apply clip_inside.
      rewrite cut2_y_raw_nth by assumption.
      destruct (swing_between (CUT2_START_HEIGHT c) (amplitude2 c)
        (2 * PI * nth i (t perimeter) 0 / perimeter + PI / 2)) as [Hpos Hneg].
      destruct (Rle_dec 0 (amplitude2 c)) as [Ha|Ha].
      * specialize (Hpos Ha). lra.
      * assert (Ha' : amplitude2 c <= 0) by lra. specialize (Hneg Ha'). lra.
Qed.

Lemma amplitude2_script : amplitude2 script_config = 12.
Proof.
  unfold amplitude2. cbn [MAJOR_AXIS CUT2_ANGLE script_config].
  rewrite tan_radians_45. lra.
Defined.

Lemma X13_no_clipping_when_the_cut_fits_witness :
  cut2_y script_config 50 = cut2_y_raw script_config 50.
Proof.
  assert (Hp : 0 < 50) by lra.
  assert (Hs : 0 <= CUT2_START_HEIGHT script_config <= HEIGHT script_config)
    by (simpl; lra).
  assert (He : 0 <= CUT2_START_HEIGHT script_config
                    + 2 * amplitude2 script_config <= HEIGHT script_config)
    by (rewrite amplitude2_script; simpl; lra).
  exact (proj2 (X13_no_clipping_when_the_cut_fits script_config 50 Hp) Hs He).
Defined.

(** X14.  For a positive perimeter every sample lies in [0, perimeter], the
    extent of the bottom edge: no point of a cut line is drawn to the left
    or to the right of the bottom edge. *)
Theorem X14_samples_within_bottom_edge (perimeter : R) :
  0 < perimeter ->
  Forall (fun x => 0 <= x <= perimeter) (t perimeter).
Proof.
  intros Hp. apply Forall_forall. intros x Hx.
  destruct (In_nth _ _ 0 Hx) as (i & Hi & <-).
  rewrite t_length in Hi. rewrite t_nth by assumption.
  pose proof (pos_INR i) as H0.
  assert (H199 : INR i <= 199).
  { assert (Hle : (i <= 199)%nat) by lia. apply le_INR in Hle.
    replace (INR 199) with 199 in Hle by (simpl; lra). exact Hle. }
  split; nra.
Qed.

Lemma X14_samples_within_bottom_edge_witness :
  Forall (fun x => 0 <= x <= 50) (t 50).
Proof.
  assert (Hp : 0 < 50) by lra.
  exact (X14_samples_within_bottom_edge 50 Hp).
Defined.
